(** * legostocker: the LEGO set store of [legostocker/sets.py]

    A shallow embedding of [RebrickableStore] (its factory [from_csv],
    the row conversion [_pdrow_to_set] and the lookup [by_id]) together
    with the few Python builtins and pandas operations these methods call,
    followed by the properties of the lookup contract.

    Conventions.
    - A Python exception is a value of [exn]; a call that may raise returns
      a [result].
    - A cell of the table is a [value]: the objects that [pandas.read_csv]
      puts into a frame (text, integers, floats with NaN for a missing
      entry, booleans).
    - Text is ASCII text; Python's treatment of non-ASCII digits and
      white space in [int(...)] is outside the model, and [int] reads a
      text of any length (the Python 3.8 of the repository's time). The
      white space of an ASCII text is 0x09 to 0x0d and 0x20.
    - pandas is the pandas 1.x of the repository's time: text columns are
      object columns, a non-text entry tests as NaN under [.str.startswith],
      and a mask holding NaN cannot index a frame. *)

From Stdlib Require Import ZArith List String Ascii Bool Lia.
From Stdlib Require Import DecimalString SpecFloat.
From Stdlib Require DecimalPos.
Import ListNotations.

Local Open Scope string_scope.
Local Open Scope Z_scope.

(** ** Exceptions and results *)

Inductive exn : Type :=
| AssertionError
| ValueError
| OverflowError
| AttributeError
| KeyError
| IndexError
| FileNotFoundError
| PermissionError
| ParserError
| EmptyDataError.

Inductive result (A : Type) : Type :=
| Ok (a : A)
| Err (e : exn).

Arguments Ok {A} a.
Arguments Err {A} e.

Definition rbind {A B : Type} (r : result A) (k : A -> result B) : result B :=
  match r with
  | Ok a => k a
  | Err e => Err e
  end.

Definition rmap {A B : Type} (f : A -> B) (r : result A) : result B :=
  rbind r (fun a => Ok (f a)).

Definition is_ok {A : Type} (r : result A) : bool :=
  match r with Ok _ => true | Err _ => false end.

(** ** Cells *)

Inductive value : Type :=
| VStr (s : string)
| VInt (z : Z)
| VFloat (f : spec_float)
| VBool (b : bool).

(** [isinstance(v, str)] *)
Definition isinstance_str (v : value) : bool :=
  match v with VStr _ => true | _ => false end.

(** The missing entry of pandas, [float('nan')]. *)
Definition NaN : value := VFloat S754_nan.

(** ** Python builtins *)

Module Py.

(** The white space that [int] drops around an ASCII text: tab, line
    feed, vertical tab, form feed, carriage return and the space. *)
Definition is_space (c : ascii) : bool :=
  let n := nat_of_ascii c in
  ((9 <=? n) && (n <=? 13) || (n =? 32))%nat.

Definition is_digit (c : ascii) : bool :=
  let n := nat_of_ascii c in
  ((48 <=? n) && (n <=? 57))%nat.

Definition digit_val (c : ascii) : Z := Z.of_nat (nat_of_ascii c) - 48.

Fixpoint lstrip (s : string) : string :=
  match s with
  | EmptyString => EmptyString
  | String c s' => if is_space c then lstrip s' else s
  end.

Fixpoint rstrip (s : string) : string :=
  match s with
  | EmptyString => EmptyString
  | String c s' =>
      match rstrip s' with
      | EmptyString => if is_space c then EmptyString else String c EmptyString
      | r => String c r
      end
  end.

(** [s.strip()] *)
Definition strip (s : string) : string := rstrip (lstrip s).

(** The digits of a decimal literal: a single underscore may separate
    two digits. [seen] tells whether the previous character was a
    digit. *)
Fixpoint digits (acc : Z) (seen : bool) (s : string) : option Z :=
  match s with
  | EmptyString => if seen then Some acc else None
  | String c s' =>
      if is_digit c then digits (10 * acc + digit_val c) true s'
      else if Ascii.eqb c "_"%char then
             if seen then digits acc false s' else None
           else None
  end.

(** [int(s)] for a text [s]: surrounding white space is dropped, one
    sign is allowed, the rest is a decimal literal. *)
Definition int_of_str (s : string) : result Z :=
  let body :=
    match strip s with
    | String "-" s' => option_map Z.opp (digits 0 false s')
    | String "+" s' => digits 0 false s'
    | s' => digits 0 false s'
    end in
  match body with
  | Some z => Ok z
  | None => Err ValueError
  end.

(** [int(x)] for a float [x]: truncation towards zero. *)
Definition int_of_float (f : spec_float) : result Z :=
  match f with
  | S754_zero _ => Ok 0
  | S754_infinity _ => Err OverflowError
  | S754_nan => Err ValueError
  | S754_finite s m e =>
      let a := if 0 <=? e then Z.shiftl (Z.pos m) e
               else Z.shiftr (Z.pos m) (- e) in
      Ok (if s then - a else a)
  end.

(** [int(v)] *)
Definition int (v : value) : result Z :=
  match v with
  | VStr s => int_of_str s
  | VInt z => Ok z
  | VFloat f => int_of_float f
  | VBool b => Ok (if b then 1 else 0)
  end.

(** [str(n)] for an integer [n] *)
Definition str_of_int (z : Z) : string :=
  NilZero.string_of_int (Z.to_int z).

Section Str.
(** [repr] of a float (shortest digits that read back) is the
    interpreter's; the store only passes it through. *)
Variable float_repr : spec_float -> string.

(** [str(v)] *)
Definition str (v : value) : string :=
  match v with
  | VStr s => s
  | VInt z => str_of_int z
  | VFloat f => float_repr f
  | VBool b => if b then "True" else "False"
  end.
End Str.

(** [s.startswith(pat)] *)
Fixpoint startswith (s pat : string) {struct pat} : bool :=
  match pat with
  | EmptyString => true
  | String p pat' =>
      match s with
      | EmptyString => false
      | String c s' => Ascii.eqb c p && startswith s' pat'
      end
  end.

(** [s.split(sep)] for a one-character separator: the pieces between
    the occurrences of [sep], never an empty list. [cur] is the piece
    being read. *)
Fixpoint split_go (sep : ascii) (cur : string) (s : string) : list string :=
  match s with
  | EmptyString => [cur]
  | String c s' =>
      if Ascii.eqb c sep then cur :: split_go sep EmptyString s'
      else split_go sep (cur ++ String c EmptyString) s'
  end.

Definition split (s : string) (sep : ascii) : list string :=
  split_go sep EmptyString s.

(** [xs[0]] *)
Definition item0 {A : Type} (xs : list A) : result A :=
  match xs with
  | x :: _ => Ok x
  | [] => Err IndexError
  end.

End Py.

(** ** pandas: rows, frames, text columns *)

Module Pd.

(** A row of the sets table, read out of a frame as a [pd.Series]: the
    four columns of the rebrickable export that the store reads. Other
    columns of the file are never looked at. *)
Record Series : Type := mkSeries {
  set_num : value;
  name : value;
  year : value;
  num_parts : value
}.

(** A frame is its rows in table order. *)
Definition DataFrame : Type := list Series.

(** The columns of the table by their header. *)
Definition column (label : string) : option (Series -> value) :=
  if String.eqb label "set_num" then Some set_num
  else if String.eqb label "name" then Some name
  else if String.eqb label "year" then Some year
  else if String.eqb label "num_parts" then Some num_parts
  else None.

(** [row[label]] *)
Definition Series_getitem (row : Series) (label : string) : result value :=
  match column label with
  | Some col => Ok (col row)
  | None => Err KeyError
  end.

(** [frame[label]], a column *)
Definition getitem_col (frame : DataFrame) (label : string) : result (list value) :=
  match column label with
  | Some col => Ok (map col frame)
  | None => Err KeyError
  end.

(** [column.str]: pandas hands out the text accessor for a column that
    is empty or holds some text, and refuses a column of numbers only
    (which is what [read_csv] makes of a column without text). *)
Definition str_accessor (col : list value) : result (list value) :=
  match col with
  | [] => Ok col
  | _ => if existsb isinstance_str col then Ok col else Err AttributeError
  end.

(** [column.str.startswith(pat)]: a truth value for each text entry and
    NaN ([None] here) for each other entry. *)
Definition str_startswith (col : list value) (pat : string) : list (option bool) :=
  map (fun v => match v with
                | VStr s => Some (Py.startswith s pat)
                | _ => None
                end) col.

(** Rows kept by a mask known to hold truth values only. *)
Fixpoint take_rows (frame : DataFrame) (mask : list (option bool)) : DataFrame :=
  match frame, mask with
  | row :: frame', Some true :: mask' => row :: take_rows frame' mask'
  | _ :: frame', _ :: mask' => take_rows frame' mask'
  | _, _ => []
  end.

Definition is_na (m : option bool) : bool :=
  match m with None => true | Some _ => false end.

(** [frame[mask]]: a new frame of the rows whose mask entry is true; a
    mask with a NaN entry is refused. *)
Definition getitem_mask (frame : DataFrame) (mask : list (option bool)) : result DataFrame :=
  if existsb is_na mask then Err ValueError
  else Ok (take_rows frame mask).

(** [frame.iloc[0]] *)
Definition iloc0 (frame : DataFrame) : result Series :=
  match frame with
  | row :: _ => Ok row
  | [] => Err IndexError
  end.

(** What the variable [searched_set] of [by_id] may hold. *)
Inductive obj : Type :=
| Frame (frame : DataFrame)
| Row (row : Series).

(** [isinstance(o, pd.Series)] *)
Definition isinstance_Series (o : obj) : bool :=
  match o with Row _ => true | Frame _ => false end.

End Pd.

(** ** The record and the store *)

Definition LegoSetID (z : Z) : Z := z.

(** [class LegoSet(BaseModel)] *)
Record LegoSet : Type := mkLegoSet {
  set_id : Z;
  set_name : string;
  release_year : option Z;
  part_count : option Z
}.

(** [class RebrickableStore]: the one attribute that [__init__] sets. *)
Record RebrickableStore : Type := mkStore {
  sets_frame : Pd.DataFrame
}.

Definition DATASET_COL_ID : string := "set_num".
Definition DATASET_COL_NAME : string := "name".
Definition DATASET_COL_REL_YEAR : string := "year".
Definition DATASET_COL_PART_COUNT : string := "num_parts".

(** A method of the store: it runs on the object [self], may raise, and
    leaves an object behind. *)
Definition M (A : Type) : Type := RebrickableStore -> result A * RebrickableStore.

Definition ret {A : Type} (a : A) : M A := fun self => (Ok a, self).

Definition raise {A : Type} (e : exn) : M A := fun self => (Err e, self).

Definition bind {A B : Type} (m : M A) (k : A -> M B) : M B :=
  fun self =>
    match m self with
    | (Ok a, self') => k a self'
    | (Err e, self') => (Err e, self')
    end.

(** A call that does not involve [self]. *)
Definition lift {A : Type} (r : result A) : M A := fun self => (r, self).

(** [self.sets_frame] *)
Definition get_sets_frame : M Pd.DataFrame := fun self => (Ok (sets_frame self), self).

(** [assert b] *)
Definition assert (b : bool) : M unit :=
  if b then ret tt else raise AssertionError.

Declare Scope method_scope.
Delimit Scope method_scope with method.
Notation "x <- m ;; k" := (bind m (fun x => k))
  (at level 61, m at next level, right associativity) : method_scope.
Notation "m ;; k" := (bind m (fun _ => k))
  (at level 61, right associativity) : method_scope.

Section Store.

Variable float_repr : spec_float -> string.

Local Open Scope method_scope.

(** [RebrickableStore._pdrow_to_set]. The two [match]es only read the
    object that the assertion before them has checked; their other
    branch is never taken. *)
Definition _pdrow_to_set (o : Pd.obj) : M LegoSet :=
  assert (Pd.isinstance_Series o) ;;
  match o with
  | Pd.Frame _ => raise AssertionError
  | Pd.Row row =>
      id_cell <- lift (Pd.Series_getitem row DATASET_COL_ID) ;;
      assert (isinstance_str id_cell) ;;
      match id_cell with
      | VStr id_text =>
          first <- lift (Py.item0 (Py.split id_text "-")) ;;
          the_id <- lift (Py.int_of_str first) ;;
          name_cell <- lift (Pd.Series_getitem row DATASET_COL_NAME) ;;
          year_cell <- lift (Pd.Series_getitem row DATASET_COL_REL_YEAR) ;;
          the_year <- lift (Py.int year_cell) ;;
          parts_cell <- lift (Pd.Series_getitem row DATASET_COL_PART_COUNT) ;;
          the_parts <- lift (Py.int parts_cell) ;;
          ret (mkLegoSet the_id (Py.str float_repr name_cell)
                         (Some the_year) (Some the_parts))
      | _ => raise AssertionError
      end
  end.

(** The table lookup of [by_id]:
    [self.sets_frame[self.sets_frame[COL_ID].str.startswith(str(set_id))]] *)
Definition search (set_id : Z) : M Pd.DataFrame :=
  frame <- get_sets_frame ;;
  ids <- lift (Pd.getitem_col frame DATASET_COL_ID) ;;
  text <- lift (Pd.str_accessor ids) ;;
  lift (Pd.getitem_mask frame (Pd.str_startswith text (Py.str_of_int set_id))).

(** [RebrickableStore.by_id] *)
Definition by_id (set_id : Z) : M (option LegoSet) :=
  let set_id := LegoSetID set_id in
  searched_set <- search set_id ;;
  if (List.length searched_set <=? 0)%nat then ret None
  else
    row <- (if (0 <? List.length searched_set)%nat
            then r <- lift (Pd.iloc0 searched_set) ;; ret (Pd.Row r)
            else ret (Pd.Frame searched_set)) ;;
    found <- _pdrow_to_set row ;;
    ret (Some found).

(** A caller that asks one identifier after the other and keeps every
    outcome, raised or returned: the outcomes, and the store object
    after each query. *)
Fixpoint queries (ids : list Z) (self : RebrickableStore)
  : list (result (option LegoSet) * RebrickableStore) :=
  match ids with
  | [] => []
  | n :: ids' =>
      let out := by_id n self in
      out :: queries ids' (snd out)
  end.

End Store.

(** ** Loading *)

Section Loading.

(** The file system and the csv reader of pandas are outside the
    repository: [read_csv path w] is the outcome of
    [pd.read_csv(path)] in the world [w], and the world it leaves. *)
Variable World : Type.
Variable read_csv : string -> World -> result Pd.DataFrame * World.

(** [RebrickableStore.__init__] *)
Definition __init__ (sets_frame : Pd.DataFrame) : RebrickableStore :=
  mkStore sets_frame.

(** [RebrickableStore.from_csv]: the read runs once, in the executor,
    and is awaited. *)
Definition from_csv (csv_file : string) (w : World) : result RebrickableStore * World :=
  match read_csv csv_file w with
  | (Ok sets_frame, w') => (Ok (__init__ sets_frame), w')
  | (Err e, w') => (Err e, w')
  end.

End Loading.

(** ** Vocabulary of the properties *)

(** The outcome of a method call, and the object it leaves. *)
Definition run {A : Type} (m : M A) (self : RebrickableStore) : result A := fst (m self).
Definition after {A : Type} (m : M A) (self : RebrickableStore) : RebrickableStore := snd (m self).

(** [s] starts with [p]: [s] is [p] followed by something. *)
Definition starts_with (s p : string) : Prop := exists rest, s = p ++ rest.

(** The identifier of [row] is a text that starts with the decimal
    writing of [n]. *)
Definition matches (n : Z) (row : Pd.Series) : Prop :=
  exists s, Pd.set_num row = VStr s /\ starts_with s (Py.str_of_int n).

Definition matchb (n : Z) (row : Pd.Series) : bool :=
  match Pd.set_num row with
  | VStr s => Py.startswith s (Py.str_of_int n)
  | _ => false
  end.

(** Every identifier of the frame is a text. *)
Definition text_ids (frame : Pd.DataFrame) : Prop :=
  Forall (fun row => isinstance_str (Pd.set_num row) = true) frame.

(** [row] is the first row of [frame], in table order, that [n] matches. *)
Definition first_match (n : Z) (frame : Pd.DataFrame) (row : Pd.Series) : Prop :=
  exists before rest,
    frame = (before ++ row :: rest)%list /\
    Forall (fun r => ~ matches n r) before /\
    matches n row.

(** A text of decimal digits and the number it writes. *)
Definition all_digits (s : string) : Prop :=
  Forall (fun c => Py.is_digit c = true) (list_ascii_of_string s).

Definition decimal (s : string) : Z :=
  fold_left (fun acc c => 10 * acc + Py.digit_val c) (list_ascii_of_string s) 0.

(** A method that leaves the object it runs on as it found it. *)
Definition read_only {A : Type} (m : M A) : Prop :=
  forall self, after m self = self.

(** ** Sample tables *)

(** A float printer for the samples, none of which prints a float. *)
Definition sample_repr (f : spec_float) : string := "nan".

(** The row ["7140-1", "Brick Separator", 2001, 4]. *)
Definition brick_separator : Pd.Series :=
  Pd.mkSeries (VStr "7140-1") (VStr "Brick Separator") (VInt 2001) (VInt 4).

Definition row_71 : Pd.Series :=
  Pd.mkSeries (VStr "71-1") (VStr "Tractor") (VInt 1999) (VInt 12).

Definition row_1000_1 : Pd.Series :=
  Pd.mkSeries (VStr "1000-1") (VStr "First variant") (VInt 1985) (VInt 30).

Definition row_1000_2 : Pd.Series :=
  Pd.mkSeries (VStr "1000-2") (VStr "Second variant") (VInt 1987) (VInt 31).

(** A row whose identifier is missing in the file. *)
Definition row_no_id : Pd.Series :=
  Pd.mkSeries NaN (VStr "Unnumbered") (VInt 2001) (VInt 4).

(** A row whose year is missing in the file. *)
Definition row_no_year : Pd.Series :=
  Pd.mkSeries (VStr "7140-1") (VStr "Brick Separator") NaN (VInt 4).

(** ** The command line entry point, [legostocker/__main__.py] *)

Module Main.

Section Main.

Variable float_repr : spec_float -> string.

(** [str(lego_set)]: how pydantic writes a record is pydantic's. *)
Variable LegoSet_str : LegoSet -> string.

Variable World : Type.
Variable read_csv : string -> World -> result Pd.DataFrame * World.

(** [class Store]: the path it was given and the store it loaded. The
    event loop it keeps only runs the two coroutines to their end. *)
Record Store : Type := mkMain {
  csv_path : string;
  _store : RebrickableStore
}.

(** [Store.__init__] *)
Definition __init__ (csv_path : string) (w : World) : result Store * World :=
  match from_csv World read_csv csv_path w with
  | (Ok store, w') => (Ok (mkMain csv_path store), w')
  | (Err e, w') => (Err e, w')
  end.

(** [print(line)] on a standard output kept as its lines. *)
Definition print (line : string) (out : list string) : list string :=
  (out ++ [line])%list.

(** [f"No lego set {set_id} was found in the database"] *)
Definition not_found_line (set_id : Z) : string :=
  "No lego set " ++ Py.str_of_int set_id ++ " was found in the database".

(** [f"Found: {lego_set}"] *)
Definition found_line (lego_set : LegoSet) : string :=
  "Found: " ++ LegoSet_str lego_set.

(** [Store.by_id]: what it returns or raises, the object and the output
    it leaves. *)
Definition by_id (set_id : Z) (self : Store) (out : list string)
  : result unit * Store * list string :=
  match by_id float_repr set_id (_store self) with
  | (Ok lego_set, store') =>
      let self' := mkMain (csv_path self) store' in
      match lego_set with
      | None => (Ok tt, self', print (not_found_line set_id) out)
      | Some found => (Ok tt, self', print (found_line found) out)
      end
  | (Err e, store') => (Err e, mkMain (csv_path self) store', out)
  end.

End Main.

End Main.

(** ** The builtins and the methods on the samples *)

Example str_of_int_0 : Py.str_of_int 0 = "0". Proof. reflexivity. Qed.
Example str_of_int_7140 : Py.str_of_int 7140 = "7140". Proof. reflexivity. Qed.
Example str_of_int_neg : Py.str_of_int (-12) = "-12". Proof. reflexivity. Qed.
Example int_of_str_pad : Py.int_of_str " +1_000 " = Ok 1000. Proof. reflexivity. Qed.
Example int_of_str_empty : Py.int_of_str "" = Err ValueError. Proof. reflexivity. Qed.
(** the unit separator 0x1f is not white space for [int] *)
Example int_of_str_unit_sep :
  Py.int_of_str ("2001" ++ String (ascii_of_nat 31) EmptyString) = Err ValueError.
Proof. reflexivity. Qed.
Example int_of_str_unit_sep_lead :
  Py.int_of_str (String (ascii_of_nat 31) "4") = Err ValueError.
Proof. reflexivity. Qed.
(** tab and line feed are *)
Example int_of_str_tab :
  Py.int_of_str (String (ascii_of_nat 9) ("12" ++ String (ascii_of_nat 10) EmptyString))
  = Ok 12.
Proof. reflexivity. Qed.
Example int_of_str_us : Py.int_of_str "1__0" = Err ValueError. Proof. reflexivity. Qed.
Example split_7140 : Py.split "7140-1" "-" = ["7140"; "1"]. Proof. reflexivity. Qed.
Example split_lead : Py.split "-5-1" "-" = [""; "5"; "1"]. Proof. reflexivity. Qed.
Example split_none : Py.split "abc" "-" = ["abc"]. Proof. reflexivity. Qed.
(** 2001.5 = 4003 * 2^-1 truncates to 2001 *)
Example int_of_float_trunc :
  Py.int_of_float (S754_finite false 4003 (-1)) = Ok 2001.
Proof. reflexivity. Qed.

(** ** Facts about the builtins *)

Lemma startswith_spec (s pat : string) :
  Py.startswith s pat = true <-> starts_with s pat.
Proof.
  revert s. induction pat as [|p pat IH]; intros s; simpl.
  - split; [intros _; exists s; reflexivity | reflexivity].
  - destruct s as [|c s].
    + split; [discriminate | intros [rest H]; discriminate].
    + rewrite andb_true_iff, Ascii.eqb_eq, IH. split.
      * intros [-> [rest ->]]. exists rest. reflexivity.
      * intros [rest H]. simpl in H. injection H as -> ->.
        split; [reflexivity | exists rest; reflexivity].
Qed.

Lemma digit_not_space (c : ascii) : Py.is_digit c = true -> Py.is_space c = false.
Proof.
  destruct c as [[] [] [] [] [] [] [] []]; vm_compute; congruence.
Qed.

Lemma digit_not_dash (c : ascii) : Py.is_digit c = true -> Ascii.eqb c "-" = false.
Proof.
  destruct c as [[] [] [] [] [] [] [] []]; vm_compute; congruence.
Qed.

Lemma digit_not_plus (c : ascii) : Py.is_digit c = true -> Ascii.eqb c "+" = false.
Proof.
  destruct c as [[] [] [] [] [] [] [] []]; vm_compute; congruence.
Qed.

Lemma all_digits_cons (c : ascii) (s : string) :
  all_digits (String c s) <-> Py.is_digit c = true /\ all_digits s.
Proof.
  unfold all_digits. simpl. split.
  - intros H. inversion H; subst. split; assumption.
  - intros [Hc Hs]. constructor; assumption.
Qed.

Lemma lstrip_digits (s : string) : all_digits s -> Py.lstrip s = s.
Proof.
  destruct s as [|c s]; [reflexivity|].
  intros H. apply all_digits_cons in H as [Hc _].
  simpl. rewrite (digit_not_space c Hc). reflexivity.
Qed.

Lemma rstrip_digits (s : string) : all_digits s -> Py.rstrip s = s.
Proof.
  induction s as [|c s IH]; [reflexivity|].
  intros H. apply all_digits_cons in H as [Hc Hs].
  simpl. rewrite (IH Hs), (digit_not_space c Hc).
  destruct s; reflexivity.
Qed.

Lemma digits_all_digits (s : string) :
  all_digits s ->
  forall acc seen, (s <> EmptyString \/ seen = true) ->
  Py.digits acc seen s =
    Some (fold_left (fun a c => 10 * a + Py.digit_val c) (list_ascii_of_string s) acc).
Proof.
  induction s as [|c s IH]; intros H acc seen Hne.
  - destruct Hne as [Hne | ->]; [congruence | reflexivity].
  - apply all_digits_cons in H as [Hc Hs].
    simpl. rewrite Hc. apply IH; [assumption | right; reflexivity].
Qed.

(** [int] reads a text of digits as the number it writes. *)
Lemma int_of_str_digits (s : string) :
  all_digits s -> s <> EmptyString -> Py.int_of_str s = Ok (decimal s).
Proof.
  intros H Hne. unfold Py.int_of_str, Py.strip.
  rewrite (lstrip_digits s H), (rstrip_digits s H).
  destruct s as [|c s]; [congruence|].
  pose proof H as H'. apply all_digits_cons in H' as [Hc _].
  assert (E : (match String c s with
               | String "-" s' => option_map Z.opp (Py.digits 0 false s')
               | String "+" s' => Py.digits 0 false s'
               | s' => Py.digits 0 false s'
               end) = Py.digits 0 false (String c s)).
  { destruct c as [[] [] [] [] [] [] [] []]; try reflexivity;
      vm_compute in Hc; discriminate. }
  rewrite E, (digits_all_digits _ H 0 false) by (left; congruence).
  reflexivity.
Qed.

Lemma split_go_first (sep : ascii) (a b cur : string) :
  Forall (fun c => Ascii.eqb c sep = false) (list_ascii_of_string a) ->
  Py.split_go sep cur (a ++ String sep b) =
    (cur ++ a) :: Py.split_go sep EmptyString b.
Proof.
  revert cur. induction a as [|c a IH]; intros cur H; simpl.
  - rewrite Ascii.eqb_refl.
    replace (cur ++ "") with cur; [reflexivity|].
    clear. induction cur; simpl; congruence.
  - inversion H as [|? ? Hc Ha]; subst. rewrite Hc, (IH _ Ha).
    f_equal. clear. induction cur; simpl; congruence.
Qed.

(** The piece before the first dash of [digits-rest] is [digits]. *)
Lemma split_dash_digits (ds rest : string) :
  all_digits ds ->
  Py.item0 (Py.split (ds ++ String "-" rest) "-") = Ok ds.
Proof.
  intros H. unfold Py.split. rewrite split_go_first; [reflexivity|].
  unfold all_digits in H. eapply Forall_impl; [|exact H].
  intros c Hc. apply digit_not_dash. exact Hc.
Qed.

(** ** Facts about the frame operations *)

Lemma matchb_spec (n : Z) (row : Pd.Series) : matchb n row = true <-> matches n row.
Proof.
  unfold matchb, matches. destruct (Pd.set_num row) as [s| | |].
  - rewrite startswith_spec. split.
    + intros H. exists s. split; [reflexivity | exact H].
    + intros [s' [E H]]. injection E as ->. exact H.
  - split; [discriminate | intros [s [E _]]; discriminate].
  - split; [discriminate | intros [s [E _]]; discriminate].
  - split; [discriminate | intros [s [E _]]; discriminate].
Qed.

Lemma str_accessor_text (frame : Pd.DataFrame) :
  text_ids frame ->
  Pd.str_accessor (map Pd.set_num frame) = Ok (map Pd.set_num frame).
Proof.
  intros H. destruct H as [|row frame Hrow Hrest]; [reflexivity|].
  unfold Pd.str_accessor. simpl map. simpl existsb. rewrite Hrow. reflexivity.
Qed.

Lemma mask_text_no_na (frame : Pd.DataFrame) (pat : string) :
  text_ids frame ->
  existsb Pd.is_na (Pd.str_startswith (map Pd.set_num frame) pat) = false.
Proof.
  induction 1 as [|row frame Hrow Hrest IH]; [reflexivity|].
  simpl. rewrite IH. destruct (Pd.set_num row); try discriminate. reflexivity.
Qed.

Lemma take_rows_text (frame : Pd.DataFrame) (n : Z) :
  text_ids frame ->
  Pd.take_rows frame (Pd.str_startswith (map Pd.set_num frame) (Py.str_of_int n))
  = filter (matchb n) frame.
Proof.
  induction 1 as [|row frame Hrow Hrest IH]; [reflexivity|].
  simpl. unfold matchb at 1. destruct (Pd.set_num row); try discriminate.
  rewrite IH. destruct (Py.startswith s (Py.str_of_int n)); reflexivity.
Qed.

(** Over a column of text the lookup keeps, in table order, the rows
    that match. *)
Lemma search_text (n : Z) (self : RebrickableStore) :
  text_ids (sets_frame self) ->
  search n self = (Ok (filter (matchb n) (sets_frame self)), self).
Proof.
  intros H. unfold search, bind, get_sets_frame, lift. simpl.
  rewrite (str_accessor_text _ H). unfold Pd.getitem_mask.
  rewrite (mask_text_no_na _ _ H), (take_rows_text _ n H). reflexivity.
Qed.

Lemma mask_na (frame : Pd.DataFrame) (pat : string) :
  Exists (fun row => isinstance_str (Pd.set_num row) = false) frame ->
  existsb Pd.is_na (Pd.str_startswith (map Pd.set_num frame) pat) = true.
Proof.
  induction 1 as [row frame Hrow | row frame Hrest IH]; simpl.
  - destruct (Pd.set_num row); try discriminate; reflexivity.
  - rewrite IH. apply orb_true_r.
Qed.

(** A cell of the identifier column that is not a text makes the lookup
    raise, in the accessor or in the indexing. *)
Lemma search_not_text (n : Z) (self : RebrickableStore) :
  Exists (fun row => isinstance_str (Pd.set_num row) = false) (sets_frame self) ->
  search n self = (Err AttributeError, self) \/
  search n self = (Err ValueError, self).
Proof.
  intros H. unfold search, bind, get_sets_frame, lift. simpl.
  destruct (Pd.str_accessor (map Pd.set_num (sets_frame self))) as [col|e] eqn:E.
  - right. unfold Pd.str_accessor in E.
    assert (col = map Pd.set_num (sets_frame self)) as ->.
    { destruct (map Pd.set_num (sets_frame self)); [congruence|].
      destruct (existsb isinstance_str (v :: l)); congruence. }
    unfold Pd.getitem_mask. rewrite (mask_na _ _ H). reflexivity.
  - left. unfold Pd.str_accessor in E.
    destruct (map Pd.set_num (sets_frame self)); [discriminate|].
    destruct (existsb isinstance_str (v :: l)); congruence.
Qed.

Lemma search_read_only (n : Z) : read_only (search n).
Proof.
  intros self. unfold after, search, bind, get_sets_frame, lift. simpl.
  destruct (Pd.str_accessor _); reflexivity.
Qed.

Lemma filter_first (n : Z) (frame : Pd.DataFrame) (row : Pd.Series) :
  first_match n frame row ->
  exists rest, filter (matchb n) frame = row :: rest.
Proof.
  intros (before & rest & -> & Hb & Hrow).
  induction Hb as [|r before Hr Hb IH]; simpl.
  - apply matchb_spec in Hrow. rewrite Hrow. eexists. reflexivity.
  - destruct (matchb n r) eqn:E; [|exact IH].
    apply matchb_spec in E. contradiction.
Qed.

Lemma filter_none (n : Z) (frame : Pd.DataFrame) :
  Forall (fun r => ~ matches n r) frame -> filter (matchb n) frame = [].
Proof.
  induction 1 as [|r frame Hr Hrest IH]; [reflexivity|].
  simpl. destruct (matchb n r) eqn:E; [|exact IH].
  apply matchb_spec in E. contradiction.
Qed.

(** ** Facts about the methods *)

Section StoreFacts.

Variable float_repr : spec_float -> string.

(** The conversion never looks at the store, and leaves it alone. *)
Lemma pdrow_to_set_pure (o : Pd.obj) :
  exists r, forall self, _pdrow_to_set float_repr o self = (r, self).
Proof.
  destruct o as [frame | [id_cell name_cell year_cell parts_cell]].
  - eexists. intros self. reflexivity.
  - destruct id_cell as [t| | |]; try (eexists; intros self; reflexivity).
    unfold _pdrow_to_set, bind, lift, assert, ret, raise. simpl.
    destruct (Py.item0 (Py.split t "-")) as [first|e];
      [|eexists; intros self; reflexivity].
    destruct (Py.int_of_str first) as [i|e];
      [|eexists; intros self; reflexivity].
    destruct (Py.int year_cell) as [y|e];
      [|eexists; intros self; reflexivity].
    destruct (Py.int parts_cell) as [p|e];
      eexists; intros self; reflexivity.
Qed.

Lemma pdrow_to_set_read_only (o : Pd.obj) : read_only (_pdrow_to_set float_repr o).
Proof.
  intros self. destruct (pdrow_to_set_pure o) as [r H].
  unfold after. rewrite H. reflexivity.
Qed.

Lemma pdrow_to_set_any_store (o : Pd.obj) (self self' : RebrickableStore) :
  run (_pdrow_to_set float_repr o) self = run (_pdrow_to_set float_repr o) self'.
Proof.
  destruct (pdrow_to_set_pure o) as [r H].
  unfold run. rewrite !H. reflexivity.
Qed.

(** What the conversion makes of a row whose identifier is a text. *)
Lemma pdrow_to_set_text (t : string) (name_cell year_cell parts_cell : value)
      (self : RebrickableStore) :
  run (_pdrow_to_set float_repr
         (Pd.Row (Pd.mkSeries (VStr t) name_cell year_cell parts_cell))) self
  = rbind (Py.item0 (Py.split t "-")) (fun first =>
    rbind (Py.int_of_str first) (fun i =>
    rbind (Py.int year_cell) (fun y =>
    rbind (Py.int parts_cell) (fun p =>
    Ok (mkLegoSet i (Py.str float_repr name_cell) (Some y) (Some p)))))).
Proof.
  unfold run, _pdrow_to_set, bind, lift, assert, ret, raise. simpl.
  destruct (Py.item0 (Py.split t "-")) as [first|e]; [|reflexivity]. simpl.
  destruct (Py.int_of_str first) as [i|e]; [|reflexivity]. simpl.
  destruct (Py.int year_cell) as [y|e]; [|reflexivity]. simpl.
  destruct (Py.int parts_cell) as [p|e]; reflexivity.
Qed.

(** [by_id] after its lookup: nothing found is absence, otherwise the
    first row found is converted. *)
Lemma by_id_after_search (n : Z) (self : RebrickableStore) :
  by_id float_repr n self =
  match search n self with
  | (Ok [], self') => (Ok None, self')
  | (Ok (row :: _), self') =>
      (rmap Some (run (_pdrow_to_set float_repr (Pd.Row row)) self'),
       after (_pdrow_to_set float_repr (Pd.Row row)) self')
  | (Err e, self') => (Err e, self')
  end.
Proof.
  unfold by_id, LegoSetID, bind at 1.
  destruct (search n self) as [[[|row rows]|e] self']; try reflexivity.
  simpl. unfold bind, lift, ret, run, after. simpl.
  destruct (_pdrow_to_set float_repr (Pd.Row row) self') as [[found|e] s]; reflexivity.
Qed.

Lemma by_id_read_only (n : Z) : read_only (by_id float_repr n).
Proof.
  intros self. unfold after. rewrite by_id_after_search.
  pose proof (search_read_only n self) as H. unfold after in H.
  destruct (search n self) as [[[|row rows]|e] self']; simpl in *; try exact H.
  rewrite pdrow_to_set_read_only. exact H.
Qed.

(** Over a column of text, [by_id] answers with the conversion of the
    first row that matches. *)
Lemma by_id_first (n : Z) (self : RebrickableStore) (row : Pd.Series) :
  text_ids (sets_frame self) ->
  first_match n (sets_frame self) row ->
  run (by_id float_repr n) self =
  rmap Some (run (_pdrow_to_set float_repr (Pd.Row row)) self).
Proof.
  intros Ht Hf. unfold run at 1. rewrite by_id_after_search, (search_text n self Ht).
  destruct (filter_first _ _ _ Hf) as [rest ->]. reflexivity.
Qed.

Lemma by_id_none (n : Z) (self : RebrickableStore) :
  text_ids (sets_frame self) ->
  Forall (fun r => ~ matches n r) (sets_frame self) ->
  run (by_id float_repr n) self = Ok None.
Proof.
  intros Ht Hn. unfold run. rewrite by_id_after_search, (search_text n self Ht).
  rewrite (filter_none _ _ Hn). reflexivity.
Qed.

End StoreFacts.

Example by_id_7140 :
  run (by_id sample_repr 7140) (mkStore [brick_separator]) =
  Ok (Some (mkLegoSet 7140 "Brick Separator" (Some 2001) (Some 4))).
Proof. reflexivity. Qed.

Example by_id_7_finds_71 :
  run (by_id sample_repr 7) (mkStore [row_71]) =
  Ok (Some (mkLegoSet 71 "Tractor" (Some 1999) (Some 12))).
Proof. reflexivity. Qed.

Example by_id_8_absent : run (by_id sample_repr 8) (mkStore [row_71]) = Ok None.
Proof. reflexivity. Qed.

Example by_id_empty_table : run (by_id sample_repr 8) (mkStore []) = Ok None.
Proof. reflexivity. Qed.

Example by_id_missing_year :
  run (by_id sample_repr 7140) (mkStore [row_no_year]) = Err ValueError.
Proof. reflexivity. Qed.

Example by_id_missing_id :
  run (by_id sample_repr 7140) (mkStore [brick_separator; row_no_id]) = Err ValueError.
Proof. reflexivity. Qed.

Example by_id_number_ids :
  run (by_id sample_repr 7140)
      (mkStore [Pd.mkSeries (VInt 7140) (VStr "Brick Separator") (VInt 2001) (VInt 4)])
  = Err AttributeError.
Proof. reflexivity. Qed.

(** ** The lookup contract *)

Lemma text_ids_dec (frame : Pd.DataFrame) :
  text_ids frame \/
  Exists (fun row => isinstance_str (Pd.set_num row) = false) frame.
Proof.
  induction frame as [|row frame [IH|IH]].
  - left. constructor.
  - destruct (isinstance_str (Pd.set_num row)) eqn:E.
    + left. constructor; assumption.
    + right. constructor. exact E.
  - right. apply Exists_cons_tl. exact IH.
Qed.

Lemma first_match_in (n : Z) (frame : Pd.DataFrame) (row : Pd.Series) :
  first_match n frame row -> In row frame /\ matches n row.
Proof.
  intros (before & rest & -> & _ & Hm). split; [|exact Hm].
  apply in_or_app. right. left. reflexivity.
Qed.

Lemma split_item0_ok (t : string) (sep : ascii) :
  exists first, Py.item0 (Py.split t sep) = Ok first.
Proof.
  unfold Py.split. generalize EmptyString as cur.
  induction t as [|c t IH]; intros cur; simpl.
  - eexists. reflexivity.
  - destruct (Ascii.eqb c sep); [eexists; reflexivity | apply IH].
Qed.

Lemma int_of_str_error (t : string) (e : exn) :
  Py.int_of_str t = Err e -> e = ValueError.
Proof.
  unfold Py.int_of_str.
  match goal with |- match ?b with _ => _ end = _ -> _ => destruct b end;
    congruence.
Qed.

Section Contract.

Variable float_repr : spec_float -> string.

(** A record that the conversion returns carries a year and a part
    count. *)
Lemma pdrow_to_set_fields (o : Pd.obj) (self : RebrickableStore) (found : LegoSet) :
  run (_pdrow_to_set float_repr o) self = Ok found ->
  (exists y, release_year found = Some y) /\ (exists p, part_count found = Some p).
Proof.
  destruct o as [frame | [id_cell name_cell year_cell parts_cell]];
    [discriminate|].
  destruct id_cell as [t| | |]; try discriminate.
  rewrite pdrow_to_set_text.
  destruct (Py.item0 (Py.split t "-")) as [first|e]; [|discriminate]. simpl.
  destruct (Py.int_of_str first) as [i|e]; [|discriminate]. simpl.
  destruct (Py.int year_cell) as [y|e]; [|discriminate]. simpl.
  destruct (Py.int parts_cell) as [p|e]; [|discriminate]. simpl.
  intros H. injection H as <-. simpl. split; eexists; reflexivity.
Qed.

(** A row without a text identifier trips the assertion of the
    conversion. *)
Lemma pdrow_to_set_not_text (row : Pd.Series) (self : RebrickableStore) :
  isinstance_str (Pd.set_num row) = false ->
  run (_pdrow_to_set float_repr (Pd.Row row)) self = Err AssertionError.
Proof.
  destruct row as [[t| | |] name_cell year_cell parts_cell];
    simpl; intros H; try discriminate; reflexivity.
Qed.

(** A matched row without a year fails in [int]. *)
Lemma pdrow_to_set_no_year (row : Pd.Series) (self : RebrickableStore) :
  isinstance_str (Pd.set_num row) = true ->
  Pd.year row = NaN ->
  run (_pdrow_to_set float_repr (Pd.Row row)) self = Err ValueError.
Proof.
  destruct row as [[t| | |] name_cell year_cell parts_cell];
    simpl; intros H Hy; try discriminate; subst.
  rewrite pdrow_to_set_text.
  destruct (split_item0_ok t "-") as [first ->]. simpl.
  destruct (Py.int_of_str first) as [i|e] eqn:E; [reflexivity|].
  apply int_of_str_error in E. subst. reflexivity.
Qed.

Lemma pdrow_to_set_no_parts (row : Pd.Series) (self : RebrickableStore) :
  isinstance_str (Pd.set_num row) = true ->
  Pd.num_parts row = NaN ->
  exists e, run (_pdrow_to_set float_repr (Pd.Row row)) self = Err e.
Proof.
  destruct row as [[t| | |] name_cell year_cell parts_cell];
    simpl; intros H Hy; try discriminate; subst.
  rewrite pdrow_to_set_text.
  destruct (Py.item0 (Py.split t "-")) as [first|e]; [|eexists; reflexivity]. simpl.
  destruct (Py.int_of_str first) as [i|e]; [|eexists; reflexivity]. simpl.
  destruct (Py.int year_cell) as [y|e]; eexists; reflexivity.
Qed.

Lemma matches_text (n : Z) (row : Pd.Series) :
  matches n row -> isinstance_str (Pd.set_num row) = true.
Proof. intros [s [E _]]. rewrite E. reflexivity. Qed.

End Contract.

Section Claims.

Variable float_repr : spec_float -> string.

(** C1. The lookup rule of [by_id] is literal text-prefix matching: over
    a table whose identifiers are texts, the lookup selects exactly the
    rows whose identifier starts with the decimal writing of the
    queried number, and [by_id] answers something other than absence
    exactly when such a row exists. Nothing compares the number before
    the dash: the table holding only the row ["71-1"] answers [by_id(7)]
    with the record of that row, whose [set_id] is 71. *)
Theorem by_id_prefix_rule :
  (forall (self : RebrickableStore) (n : Z),
      text_ids (sets_frame self) ->
      (exists rows,
          run (search n) self = Ok rows /\
          forall row, In row rows <-> In row (sets_frame self) /\ matches n row) /\
      (run (by_id float_repr n) self <> Ok None <->
       exists row, In row (sets_frame self) /\ matches n row)) /\
  (forall (name_cell : value) (y p : Z),
      run (by_id float_repr 7)
          (mkStore [Pd.mkSeries (VStr "71-1") name_cell (VInt y) (VInt p)]) =
      Ok (Some (mkLegoSet 71 (Py.str float_repr name_cell) (Some y) (Some p)))).
Proof.
  split; [|intros name_cell y p; reflexivity].
  intros self n Ht. split.
  - exists (filter (matchb n) (sets_frame self)). split.
    + unfold run. rewrite (search_text n self Ht). reflexivity.
    + intros row. rewrite filter_In, matchb_spec. reflexivity.
  - unfold run. rewrite by_id_after_search, (search_text n self Ht).
    destruct (filter (matchb n) (sets_frame self)) as [|row rows] eqn:E.
    + split; [intros H; now elim H|].
      intros [row [Hin Hm]]. exfalso.
      assert (Hf : In row (filter (matchb n) (sets_frame self))).
      { apply filter_In. split; [exact Hin | apply matchb_spec; exact Hm]. }
      rewrite E in Hf. exact Hf.
    + split.
      * intros _. exists row.
        assert (Hf : In row (filter (matchb n) (sets_frame self))).
        { rewrite E. left. reflexivity. }
        apply filter_In in Hf as [Hin Hm]. apply matchb_spec in Hm.
        split; assumption.
      * intros _. simpl.
        destruct (run (_pdrow_to_set float_repr (Pd.Row row)) self); discriminate.
Qed.

(** C2. When the first row that [by_id] matches is well formed, an
    identifier [digits-variant] with a name, a year and a part count
    that [int] reads, the record returned has the number written by the
    digits before the dash as its [set_id], the name as its [set_name],
    and the year and the part count of the row: the table of the row
    ["7140-1", "Brick Separator", 2001, 4] answers [by_id(7140)] with
    [set_id=7140, set_name="Brick Separator", release_year=2001,
    part_count=4]. *)
Theorem by_id_converts_row (self : RebrickableStore) (n : Z)
        (ds variant : string) (name_cell year_cell parts_cell : value) (y p : Z) :
  text_ids (sets_frame self) ->
  first_match n (sets_frame self)
    (Pd.mkSeries (VStr (ds ++ String "-" variant)) name_cell year_cell parts_cell) ->
  all_digits ds -> ds <> EmptyString ->
  Py.int year_cell = Ok y ->
  Py.int parts_cell = Ok p ->
  run (by_id float_repr n) self =
  Ok (Some (mkLegoSet (decimal ds) (Py.str float_repr name_cell) (Some y) (Some p))).
Proof.
  intros Ht Hf Hd Hne Hy Hp.
  rewrite (by_id_first float_repr n self _ Ht Hf), pdrow_to_set_text.
  rewrite (split_dash_digits ds variant Hd). simpl.
  rewrite (int_of_str_digits ds Hd Hne). simpl.
  rewrite Hy, Hp. reflexivity.
Qed.

(** C3. When rows match the queried identifier, [by_id] returns what the
    conversion makes of the first matching row in table order, and of
    that row only: the answer is the one of the table that holds this
    row alone. Of the rows ["1000-1"] and ["1000-2"], in that order,
    [by_id(1000)] returns the record of the first. *)
Theorem by_id_first_row_only (self : RebrickableStore) (n : Z) (row : Pd.Series) :
  text_ids (sets_frame self) ->
  first_match n (sets_frame self) row ->
  run (by_id float_repr n) self =
    rmap Some (run (_pdrow_to_set float_repr (Pd.Row row)) self) /\
  run (by_id float_repr n) self = run (by_id float_repr n) (mkStore [row]).
Proof.
  intros Ht Hf. split.
  - apply by_id_first; assumption.
  - destruct (first_match_in _ _ _ Hf) as [_ Hm].
    rewrite (by_id_first float_repr n self row Ht Hf).
    rewrite (by_id_first float_repr n (mkStore [row]) row).
    + rewrite (pdrow_to_set_any_store float_repr _ self (mkStore [row])).
      reflexivity.
    + constructor; [apply (matches_text n); exact Hm | constructor].
    + exists [], []. split; [reflexivity|]. split; [constructor | exact Hm].
Qed.

(** C4. When no row's identifier text starts with the decimal writing
    of [n], [by_id(n)] returns absence, [None], which is a returned
    value and not a raised error. *)
Theorem by_id_absent (self : RebrickableStore) (n : Z) :
  text_ids (sets_frame self) ->
  Forall (fun row => ~ matches n row) (sets_frame self) ->
  run (by_id float_repr n) self = Ok None.
Proof.
  intros Ht Hn. apply by_id_none; assumption.
Qed.

(** C6. When the row that [by_id] matched cannot be converted, the
    query raises the error of the conversion: it neither returns
    absence nor a record. A missing year raises [ValueError]; a missing
    part count raises as well. *)
Theorem by_id_conversion_error (self : RebrickableStore) (n : Z) (row : Pd.Series) :
  text_ids (sets_frame self) ->
  first_match n (sets_frame self) row ->
  (forall e, run (_pdrow_to_set float_repr (Pd.Row row)) self = Err e ->
             run (by_id float_repr n) self = Err e) /\
  (Pd.year row = NaN -> run (by_id float_repr n) self = Err ValueError) /\
  (Pd.num_parts row = NaN -> exists e, run (by_id float_repr n) self = Err e).
Proof.
  intros Ht Hf. rewrite (by_id_first float_repr n self row Ht Hf).
  destruct (first_match_in _ _ _ Hf) as [_ Hm].
  pose proof (matches_text n row Hm) as Hs.
  split; [|split].
  - intros e ->. reflexivity.
  - intros Hy. rewrite (pdrow_to_set_no_year float_repr row self Hs Hy). reflexivity.
  - intros Hp. destruct (pdrow_to_set_no_parts float_repr row self Hs Hp) as [e ->].
    exists e. reflexivity.
Qed.

(** If the lookup of [by_id] went through, the identifiers are texts. *)
Lemma by_id_ok_text_ids (self : RebrickableStore) (n : Z) (out : option LegoSet) :
  run (by_id float_repr n) self = Ok out -> text_ids (sets_frame self).
Proof.
  intros H. destruct (text_ids_dec (sets_frame self)) as [Ht|Hx]; [exact Ht|].
  exfalso. unfold run in H. rewrite by_id_after_search in H.
  destruct (search_not_text n self Hx) as [E|E]; rewrite E in H; discriminate.
Qed.

(** The assertions of the conversion are never what [by_id] raises. *)
Lemma by_id_assertion_unreached (self : RebrickableStore) (n : Z) :
  run (by_id float_repr n) self <> Err AssertionError.
Proof.
  destruct (text_ids_dec (sets_frame self)) as [Ht|Hx].
  - unfold run. rewrite by_id_after_search, (search_text n self Ht).
    destruct (filter (matchb n) (sets_frame self)) as [|row rows] eqn:E;
      [discriminate|].
    assert (Hf : In row (filter (matchb n) (sets_frame self))).
    { rewrite E. left. reflexivity. }
    apply filter_In in Hf as [Hin Hm].
    destruct row as [[t| | |] name_cell year_cell parts_cell];
      try discriminate Hm.
    simpl fst. rewrite pdrow_to_set_text.
    destruct (split_item0_ok t "-") as [first ->]. simpl.
    destruct (Py.int_of_str first) as [i|e] eqn:Ei;
      [|apply int_of_str_error in Ei; subst; discriminate]. simpl.
    destruct year_cell as [ty|zy|[sy|sy| |sy my ey]|b_y]; simpl;
      try discriminate;
      try (destruct (Py.int_of_str ty) as [y|e] eqn:Ey;
           [|apply int_of_str_error in Ey; subst; discriminate]; simpl);
      destruct parts_cell as [tp|zp|[sp|sp| |sp mp ep]|bp]; simpl;
      try discriminate;
      destruct (Py.int_of_str tp) as [p|e] eqn:Ep;
      try discriminate; apply int_of_str_error in Ep; subst; discriminate.
  - unfold run. rewrite by_id_after_search.
    destruct (search_not_text n self Hx) as [E|E]; rewrite E; discriminate.
Qed.

(** C7, as the code has it. A table with a row whose identifier is not
    a text makes every [by_id] query raise instead of skipping the row;
    the error is the [AttributeError] or [ValueError] of the lookup
    over the identifier column, raised by the lookup itself before any
    row is converted. The type assertion is what raises when the
    conversion itself is given such a row. *)
Theorem by_id_not_text_id_fails (self : RebrickableStore) (n : Z) :
  Exists (fun row => isinstance_str (Pd.set_num row) = false) (sets_frame self) ->
  (run (by_id float_repr n) self = Err AttributeError \/
   run (by_id float_repr n) self = Err ValueError) /\
  (forall row, isinstance_str (Pd.set_num row) = false ->
     run (_pdrow_to_set float_repr (Pd.Row row)) self = Err AssertionError) /\
  (exists e, run (search n) self = Err e /\ run (by_id float_repr n) self = Err e).
Proof.
  intros Hx. split; [|split].
  - unfold run. rewrite by_id_after_search.
    destruct (search_not_text n self Hx) as [E|E]; rewrite E; [left|right]; reflexivity.
  - intros row Hrow. apply pdrow_to_set_not_text. exact Hrow.
  - unfold run. rewrite by_id_after_search.
    destruct (search_not_text n self Hx) as [E|E]; rewrite E;
      eexists; split; reflexivity.
Qed.

(** C8. [by_id] is deterministic over an unchanged store: a second call
    with the same identifier, on the store as the first call left it,
    returns what the first returned. *)
Theorem by_id_deterministic (self : RebrickableStore) (n : Z) :
  run (by_id float_repr n) (after (by_id float_repr n) self) =
  run (by_id float_repr n) self.
Proof.
  rewrite (by_id_read_only float_repr n self). reflexivity.
Qed.

(** C9. The store is read-only after construction: a [by_id] query,
    whatever it returns or raises, leaves the store as it was, and so
    does the conversion; after every query of a sequence the store is
    the one the sequence started on. *)
Theorem store_read_only (self : RebrickableStore) :
  (forall n, after (by_id float_repr n) self = self) /\
  (forall o, after (_pdrow_to_set float_repr o) self = self) /\
  (forall ids, Forall (fun out => snd out = self) (queries float_repr ids self)).
Proof.
  split; [|split].
  - intros n. apply by_id_read_only.
  - intros o. apply pdrow_to_set_read_only.
  - intros ids. induction ids as [|n ids IH]; simpl; [constructor|].
    pose proof (by_id_read_only float_repr n self) as H. unfold after in H.
    constructor; [exact H|]. rewrite H. exact IH.
Qed.

(** C10. A record that [by_id] returns has its [release_year] and its
    [part_count] present: the conversion reads both columns with [int],
    so the row it came from had neither of them missing. *)
Theorem by_id_fields_present (self : RebrickableStore) (n : Z) (found : LegoSet) :
  run (by_id float_repr n) self = Ok (Some found) ->
  ((exists y, release_year found = Some y) /\
   (exists p, part_count found = Some p)) /\
  (forall row, first_match n (sets_frame self) row ->
               Pd.year row <> NaN /\ Pd.num_parts row <> NaN).
Proof.
  intros H. pose proof (by_id_ok_text_ids self n _ H) as Ht. split.
  - unfold run in H. rewrite by_id_after_search, (search_text n self Ht) in H.
    destruct (filter (matchb n) (sets_frame self)) as [|row rows];
      [discriminate|].
    simpl in H.
    destruct (run (_pdrow_to_set float_repr (Pd.Row row)) self) as [r|e] eqn:E;
      [|discriminate].
    simpl in H. injection H as <-.
    apply (pdrow_to_set_fields float_repr (Pd.Row row) self r E).
  - intros row Hf. rewrite (by_id_first float_repr n self row Ht Hf) in H.
    destruct (first_match_in _ _ _ Hf) as [_ Hm].
    pose proof (matches_text n row Hm) as Hs.
    split; intros Hna.
    + rewrite (pdrow_to_set_no_year float_repr row self Hs Hna) in H. discriminate.
    + destruct (pdrow_to_set_no_parts float_repr row self Hs Hna) as [e E].
      rewrite E in H. discriminate.
Qed.

End Claims.

Section LoadingClaims.

Variable World : Type.
Variable read_csv : string -> World -> result Pd.DataFrame * World.

(** The factory has no handler around its read: an error of the read
    is the outcome of the factory, with the world as that one read left
    it. *)
Lemma from_csv_propagates (csv_file : string) (w w' : World) (e : exn) :
  read_csv csv_file w = (Err e, w') ->
  from_csv World read_csv csv_file w = (Err e, w').
Proof.
  intros H. unfold from_csv. rewrite H. reflexivity.
Qed.

Lemma from_csv_loads (csv_file : string) (w w' : World) (frame : Pd.DataFrame) :
  read_csv csv_file w = (Ok frame, w') ->
  from_csv World read_csv csv_file w = (Ok (mkStore frame), w').
Proof.
  intros H. unfold from_csv. rewrite H. reflexivity.
Qed.

End LoadingClaims.

(** ** The contract on the samples *)

Lemma by_id_prefix_rule_witness :
  text_ids [row_71] /\
  run (by_id sample_repr 7) (mkStore [row_71]) <> Ok None /\
  run (by_id sample_repr 7) (mkStore [row_71]) =
    Ok (Some (mkLegoSet 71 "Tractor" (Some 1999) (Some 12))).
Proof.
  assert (Ht : text_ids (sets_frame (mkStore [row_71]))) by (repeat constructor).
  destruct (by_id_prefix_rule sample_repr) as [Hrule Hpin].
  split; [exact Ht|]. split.
  - apply (proj2 (Hrule (mkStore [row_71]) 7 Ht)).
    exists row_71. split; [left; reflexivity|].
    exists "71-1". split; [reflexivity | exists "1-1"; reflexivity].
  - exact (Hpin (VStr "Tractor") 1999 12).
Defined.

Lemma by_id_converts_row_witness :
  run (by_id sample_repr 7140) (mkStore [brick_separator]) =
  Ok (Some (mkLegoSet 7140 "Brick Separator" (Some 2001) (Some 4))).
Proof.
  apply (by_id_converts_row sample_repr (mkStore [brick_separator]) 7140
           "7140" "1" (VStr "Brick Separator") (VInt 2001) (VInt 4) 2001 4).
  - repeat constructor.
  - exists [], []. split; [reflexivity|]. split; [constructor|].
    exists "7140-1". split; [reflexivity | exists "-1"; reflexivity].
  - repeat constructor.
  - discriminate.
  - reflexivity.
  - reflexivity.
Defined.

Lemma by_id_first_row_only_witness :
  run (by_id sample_repr 1000) (mkStore [row_1000_1; row_1000_2]) =
    Ok (Some (mkLegoSet 1000 "First variant" (Some 1985) (Some 30))) /\
  run (by_id sample_repr 1000) (mkStore [row_1000_1; row_1000_2]) =
    run (by_id sample_repr 1000) (mkStore [row_1000_1]).
Proof.
  apply (by_id_first_row_only sample_repr (mkStore [row_1000_1; row_1000_2])
           1000 row_1000_1).
  - repeat constructor.
  - exists [], [row_1000_2]. split; [reflexivity|]. split; [constructor|].
    exists "1000-1". split; [reflexivity | exists "-1"; reflexivity].
Defined.

Lemma by_id_absent_witness :
  run (by_id sample_repr 8) (mkStore [row_71]) = Ok None.
Proof.
  apply (by_id_absent sample_repr (mkStore [row_71]) 8).
  - repeat constructor.
  - constructor; [|constructor].
    intros Hm. apply matchb_spec in Hm. discriminate Hm.
Defined.


Lemma by_id_conversion_error_witness :
  run (by_id sample_repr 7140) (mkStore [row_no_year]) = Err ValueError.
Proof.
  assert (Ht : text_ids (sets_frame (mkStore [row_no_year]))) by (repeat constructor).
  assert (Hf : first_match 7140 (sets_frame (mkStore [row_no_year])) row_no_year).
  { exists [], []. split; [reflexivity|]. split; [constructor|].
    exists "7140-1". split; [reflexivity | exists "-1"; reflexivity]. }
  apply (proj1 (proj2 (by_id_conversion_error sample_repr _ 7140 row_no_year Ht Hf))).
  reflexivity.
Defined.

Lemma by_id_not_text_id_fails_witness :
  run (by_id sample_repr 7140) (mkStore [brick_separator; row_no_id]) = Err AttributeError \/
  run (by_id sample_repr 7140) (mkStore [brick_separator; row_no_id]) = Err ValueError.
Proof.
  apply (by_id_not_text_id_fails sample_repr
           (mkStore [brick_separator; row_no_id]) 7140).
  apply Exists_cons_tl. apply Exists_cons_hd. reflexivity.
Defined.

(** C7, as the spec has it, fails: the table below holds a row without a
    text identifier, the query raises, and what it raises is the
    [ValueError] of the lookup, not the assertion of the conversion. *)
Lemma by_id_not_text_id_no_assertion :
  Exists (fun row => isinstance_str (Pd.set_num row) = false)
         (sets_frame (mkStore [brick_separator; row_no_id])) /\
  run (by_id sample_repr 7140) (mkStore [brick_separator; row_no_id]) = Err ValueError /\
  run (by_id sample_repr 7140) (mkStore [brick_separator; row_no_id])
    <> Err AssertionError.
Proof.
  split; [|split].
  - apply Exists_cons_tl. apply Exists_cons_hd. reflexivity.
  - reflexivity.
  - discriminate.
Qed.

Lemma by_id_fields_present_witness :
  (exists y, release_year (mkLegoSet 7140 "Brick Separator" (Some 2001) (Some 4)) = Some y) /\
  (exists p, part_count (mkLegoSet 7140 "Brick Separator" (Some 2001) (Some 4)) = Some p).
Proof.
  apply (by_id_fields_present sample_repr (mkStore [brick_separator]) 7140
           (mkLegoSet 7140 "Brick Separator" (Some 2001) (Some 4))).
  reflexivity.
Defined.

(** ** More about the builtins: the decimal writing of an integer *)

Lemma uint_string_all_digits (d : Decimal.uint) :
  all_digits (NilEmpty.string_of_uint d).
Proof.
  induction d; simpl; [constructor | | | | | | | | | |];
    apply all_digits_cons; (split; [reflexivity | assumption]).
Qed.

Ltac digit_step IH :=
  match goal with
  | |- fold_left _ _ ?a = Z.pos (Pos.of_uint_acc _ ?b) =>
      replace a with (Z.pos b);
      [ apply IH
      | match goal with
        | |- context [Py.digit_val ?c] =>
            let v := eval vm_compute in (Py.digit_val c) in
            change (Py.digit_val c) with v
        end; lia ]
  end.

Lemma uint_string_acc (d : Decimal.uint) (acc : positive) :
  fold_left (fun a c => 10 * a + Py.digit_val c)
            (list_ascii_of_string (NilEmpty.string_of_uint d)) (Z.pos acc)
  = Z.pos (Pos.of_uint_acc d acc).
Proof.
  revert acc. induction d; intros acc;
    cbn [NilEmpty.string_of_uint list_ascii_of_string fold_left Pos.of_uint_acc];
    [reflexivity | | | | | | | | | |]; digit_step IHd.
Qed.

Lemma uint_string_value (d : Decimal.uint) :
  decimal (NilEmpty.string_of_uint d) = Z.of_N (Pos.of_uint d).
Proof.
  unfold decimal. induction d;
    cbn [NilEmpty.string_of_uint list_ascii_of_string fold_left Pos.of_uint Z.of_N];
    [reflexivity | exact IHd | | | | | | | | |];
    digit_step uint_string_acc.
Qed.

Lemma pos_string (p : positive) :
  NilZero.string_of_uint (Pos.to_uint p) = NilEmpty.string_of_uint (Pos.to_uint p) /\
  NilEmpty.string_of_uint (Pos.to_uint p) <> EmptyString.
Proof.
  pose proof (DecimalPos.Unsigned.to_uint_nonnil p) as H.
  destruct (Pos.to_uint p); [congruence | | | | | | | | | |];
    (split; [reflexivity | discriminate]).
Qed.

(** The writing of a number that is not negative: digits, and they
    write the number. *)
Lemma str_of_int_nonneg (n : Z) :
  0 <= n ->
  all_digits (Py.str_of_int n) /\
  Py.str_of_int n <> EmptyString /\
  decimal (Py.str_of_int n) = n.
Proof.
  intros Hn. destruct n as [|p|p]; [| |lia].
  - split; [repeat constructor | split; [discriminate | reflexivity]].
  - unfold Py.str_of_int. simpl Z.to_int. simpl NilZero.string_of_int.
    destruct (pos_string p) as [-> Hne].
    split; [apply uint_string_all_digits | split; [exact Hne|]].
    rewrite uint_string_value, DecimalPos.Unsigned.of_to. reflexivity.
Qed.

(** The writing of a negative number starts with the dash. *)
Lemma str_of_int_neg_dash (n : Z) :
  n < 0 -> exists s, Py.str_of_int n = String "-" s.
Proof.
  intros Hn. destruct n as [|p|p]; [lia | lia |].
  eexists. reflexivity.
Qed.

(** [int(str(n)) == n] *)
Lemma int_of_str_of_int (n : Z) : Py.int_of_str (Py.str_of_int n) = Ok n.
Proof.
  destruct n as [|p|p].
  - reflexivity.
  - destruct (str_of_int_nonneg (Z.pos p)) as (Hd & Hne & Hv); [lia|].
    rewrite (int_of_str_digits _ Hd Hne), Hv. reflexivity.
  - unfold Py.str_of_int. simpl Z.to_int. simpl NilZero.string_of_int.
    destruct (pos_string p) as [-> Hne].
    pose proof (uint_string_all_digits (Pos.to_uint p)) as Hd.
    set (s := NilEmpty.string_of_uint (Pos.to_uint p)) in *.
    unfold Py.int_of_str, Py.strip.
    assert (Hstrip : Py.rstrip (Py.lstrip (String "-" s)) = String "-" s).
    { change (Py.lstrip (String "-" s)) with (String "-" s).
      simpl. rewrite (rstrip_digits s Hd). destruct s; [congruence | reflexivity]. }
    rewrite Hstrip.
    rewrite (digits_all_digits s Hd 0 false) by (left; exact Hne).
    change (fold_left _ _ 0) with (decimal s). unfold s.
    rewrite uint_string_value, DecimalPos.Unsigned.of_to. reflexivity.
Qed.

(** ** Further properties of the lookup *)

Lemma startswith_digits_dash (pat ds variant : string) :
  all_digits pat ->
  Py.startswith (ds ++ String "-" variant) pat = Py.startswith ds pat.
Proof.
  revert ds. induction pat as [|c pat IH]; intros ds H; [reflexivity|].
  apply all_digits_cons in H as [Hc Hpat].
  destruct ds as [|d ds]; cbn [append Py.startswith].
  - rewrite Ascii.eqb_sym, (digit_not_dash c Hc). reflexivity.
  - rewrite (IH ds Hpat). reflexivity.
Qed.

Lemma starts_with_trans (s p q : string) :
  starts_with s p -> starts_with p q -> starts_with s q.
Proof.
  intros [r1 ->] [r2 ->]. exists (r2 ++ r1).
  clear. induction q as [|c q IH]; simpl; [reflexivity | rewrite IH; reflexivity].
Qed.

Lemma search_ok_text_ids (self : RebrickableStore) (n : Z) (rows : Pd.DataFrame) :
  run (search n) self = Ok rows ->
  text_ids (sets_frame self) /\ rows = filter (matchb n) (sets_frame self).
Proof.
  intros H. destruct (text_ids_dec (sets_frame self)) as [Ht|Hx].
  - split; [exact Ht|]. unfold run in H. rewrite (search_text n self Ht) in H.
    simpl in H. congruence.
  - exfalso. unfold run in H.
    destruct (search_not_text n self Hx) as [E|E]; rewrite E in H; discriminate.
Qed.

Lemma filter_head_first (n : Z) (frame rows : Pd.DataFrame) (row : Pd.Series) :
  filter (matchb n) frame = row :: rows -> first_match n frame row.
Proof.
  induction frame as [|r frame IH]; simpl; [discriminate|].
  destruct (matchb n r) eqn:E.
  - intros H. injection H as -> _. exists [], frame.
    split; [reflexivity|]. split; [constructor | apply matchb_spec; exact E].
  - intros H. destruct (IH H) as (before & rest & -> & Hb & Hm).
    exists (r :: before), rest. split; [reflexivity|]. split; [|exact Hm].
    constructor; [|exact Hb]. intros Hr. apply matchb_spec in Hr. congruence.
Qed.

Section Lookup.

Variable float_repr : spec_float -> string.

(** X1. A negative identifier never finds a record: its writing starts
    with the dash, so a row it matches has nothing before its first
    dash for [int] to read. *)
Theorem by_id_negative_never_found (self : RebrickableStore) (n : Z) (found : LegoSet) :
  n < 0 -> run (by_id float_repr n) self <> Ok (Some found).
Proof.
  intros Hn H. pose proof (by_id_ok_text_ids float_repr self n _ H) as Ht.
  unfold run in H. rewrite by_id_after_search, (search_text n self Ht) in H.
  destruct (filter (matchb n) (sets_frame self)) as [|row rows] eqn:E;
    [discriminate|].
  assert (Hf : In row (filter (matchb n) (sets_frame self))).
  { rewrite E. left. reflexivity. }
  apply filter_In in Hf as [_ Hm]. unfold matchb in Hm.
  destruct row as [[t| | |] name_cell year_cell parts_cell]; try discriminate Hm.
  simpl in Hm. destruct (str_of_int_neg_dash n Hn) as [s Es]. rewrite Es in Hm.
  destruct t as [|c t]; [discriminate Hm|].
  simpl in Hm. apply andb_true_iff in Hm as [Hc _].
  apply Ascii.eqb_eq in Hc. subst c.
  simpl fst in H. discriminate H.
Qed.

(** X2. Asking for the number a row is filed under returns that number:
    when the first row that matches [n], not negative, has the
    identifier [str(n)-variant] and a year and a part count that [int]
    reads, the record has [set_id = n]. *)
Theorem by_id_exact_id (self : RebrickableStore) (n : Z) (variant : string)
        (name_cell year_cell parts_cell : value) (y p : Z)
        (before rest : Pd.DataFrame) :
  0 <= n ->
  text_ids (sets_frame self) ->
  sets_frame self =
    (before ++ Pd.mkSeries (VStr (Py.str_of_int n ++ String "-" variant))
                           name_cell year_cell parts_cell :: rest)%list ->
  Forall (fun r => ~ matches n r) before ->
  Py.int year_cell = Ok y ->
  Py.int parts_cell = Ok p ->
  run (by_id float_repr n) self =
  Ok (Some (mkLegoSet n (Py.str float_repr name_cell) (Some y) (Some p))).
Proof.
  intros Hn Ht Hframe Hbefore Hy Hp.
  destruct (str_of_int_nonneg n Hn) as (Hd & Hne & Hv).
  rewrite (by_id_first float_repr n self
             (Pd.mkSeries (VStr (Py.str_of_int n ++ String "-" variant))
                          name_cell year_cell parts_cell) Ht).
  - rewrite pdrow_to_set_text, (split_dash_digits _ variant Hd). simpl.
    rewrite (int_of_str_digits _ Hd Hne), Hv. simpl. rewrite Hy, Hp. reflexivity.
  - exists before, rest. split; [exact Hframe|]. split; [exact Hbefore|].
    eexists. split; [reflexivity|]. eexists. reflexivity.
Qed.

(** X3. For an identifier [digits-variant] and a number that is not
    negative, the lookup decides on the digits alone: the row is kept
    exactly when the digits start with the writing of the number. The
    dash and the variant never take part in a match. *)
Theorem search_numeric_part (self : RebrickableStore) (n : Z) (rows : Pd.DataFrame)
        (row : Pd.Series) (ds variant : string) :
  0 <= n ->
  run (search n) self = Ok rows ->
  In row (sets_frame self) ->
  Pd.set_num row = VStr (ds ++ String "-" variant) ->
  (In row rows <-> starts_with ds (Py.str_of_int n)).
Proof.
  intros Hn Hs Hin Hid.
  destruct (search_ok_text_ids self n rows Hs) as [_ ->].
  destruct (str_of_int_nonneg n Hn) as (Hd & _ & _).
  rewrite filter_In. unfold matchb. rewrite Hid.
  rewrite (startswith_digits_dash _ ds variant Hd), startswith_spec.
  split; [intros [_ H]; exact H | intros H; split; assumption].
Qed.

(** X4. Absence is inherited by longer numbers: when [by_id(n)] returns
    absence and the writing of [m] starts with the writing of [n],
    [by_id(m)] returns absence as well. *)
Theorem by_id_absent_extends (self : RebrickableStore) (n m : Z) :
  starts_with (Py.str_of_int m) (Py.str_of_int n) ->
  run (by_id float_repr n) self = Ok None ->
  run (by_id float_repr m) self = Ok None.
Proof.
  intros Hp H. pose proof (by_id_ok_text_ids float_repr self n _ H) as Ht.
  apply by_id_none; [exact Ht|].
  unfold run in H. rewrite by_id_after_search, (search_text n self Ht) in H.
  destruct (filter (matchb n) (sets_frame self)) as [|row rows] eqn:E.
  - apply Forall_forall. intros r Hin [s [Hs Hm]].
    assert (Hf : In r (filter (matchb n) (sets_frame self))).
    { apply filter_In. split; [exact Hin|]. apply matchb_spec.
      exists s. split; [exact Hs|]. apply (starts_with_trans _ _ _ Hm Hp). }
    rewrite E in Hf. exact Hf.
  - simpl in H.
    destruct (run (_pdrow_to_set float_repr (Pd.Row row)) self); discriminate.
Qed.

End Lookup.

Lemma split_go_no_sep (sep : ascii) (a cur : string) :
  Forall (fun c => Ascii.eqb c sep = false) (list_ascii_of_string a) ->
  Py.split_go sep cur a = [cur ++ a].
Proof.
  revert cur. induction a as [|c a IH]; intros cur H; simpl.
  - f_equal. clear. induction cur; simpl; congruence.
  - inversion H as [|? ? Hc Ha]; subst. rewrite Hc, (IH _ Ha).
    f_equal. clear. induction cur; simpl; congruence.
Qed.

Lemma int_error (v : value) (e : exn) :
  Py.int v = Err e ->
  e = ValueError \/
  (e = OverflowError /\ exists s, v = VFloat (S754_infinity s)).
Proof.
  destruct v as [t|z|[s|s| |s m ex]|b]; simpl; intros H; try discriminate.
  - left. apply (int_of_str_error t). exact H.
  - right. split; [congruence | exists s; reflexivity].
  - left. congruence.
Qed.

Lemma text_ids_app (a b : Pd.DataFrame) :
  text_ids a -> text_ids b -> text_ids (a ++ b)%list.
Proof.
  intros Ha Hb. apply Forall_app. split; assumption.
Qed.

Section Tables.

Variable float_repr : spec_float -> string.

(** X5. Over a table made of two tables, one after the other, [by_id]
    answers as over the first unless the first answers absence, and
    then as over the second. *)
Theorem by_id_app (a b : Pd.DataFrame) (n : Z) :
  text_ids a -> text_ids b ->
  run (by_id float_repr n) (mkStore (a ++ b)%list) =
  match run (by_id float_repr n) (mkStore a) with
  | Ok None => run (by_id float_repr n) (mkStore b)
  | answer => answer
  end.
Proof.
  intros Ha Hb. pose proof (text_ids_app a b Ha Hb) as Hab.
  unfold run at 1 2 3. rewrite !by_id_after_search.
  rewrite (search_text n (mkStore (a ++ b)%list) Hab).
  rewrite (search_text n (mkStore a) Ha), (search_text n (mkStore b) Hb).
  simpl sets_frame. rewrite filter_app.
  destruct (filter (matchb n) a) as [|row rows]; simpl.
  - destruct (filter (matchb n) b) as [|row rows]; simpl; [reflexivity|].
    rewrite (pdrow_to_set_any_store float_repr _ (mkStore (a ++ b)%list) (mkStore b)).
    reflexivity.
  - rewrite (pdrow_to_set_any_store float_repr _ (mkStore (a ++ b)%list) (mkStore a)).
    destruct (run (_pdrow_to_set float_repr (Pd.Row row)) (mkStore a));
      reflexivity.
Qed.

(** X6. When all the rows that match are one and the same row, the
    order of the table and repeated rows do not matter: two tables with
    the same rows give the same answer. *)
Theorem by_id_same_rows (self self' : RebrickableStore) (n : Z) :
  text_ids (sets_frame self) ->
  (forall r, In r (sets_frame self) <-> In r (sets_frame self')) ->
  (forall r r', In r (sets_frame self) -> In r' (sets_frame self) ->
                matches n r -> matches n r' -> r = r') ->
  run (by_id float_repr n) self = run (by_id float_repr n) self'.
Proof.
  intros Ht Hsame Hone.
  assert (Ht' : text_ids (sets_frame self')).
  { apply Forall_forall. intros r Hr. apply Hsame in Hr.
    revert r Hr. apply Forall_forall. exact Ht. }
  unfold run. rewrite !by_id_after_search.
  rewrite (search_text n self Ht), (search_text n self' Ht').
  destruct (filter (matchb n) (sets_frame self)) as [|row rows] eqn:E;
    destruct (filter (matchb n) (sets_frame self')) as [|row' rows'] eqn:E'.
  - reflexivity.
  - exfalso.
    assert (Hf : In row' (filter (matchb n) (sets_frame self'))).
    { rewrite E'. left. reflexivity. }
    apply filter_In in Hf as [Hin Hm]. apply Hsame in Hin.
    assert (Hg : In row' (filter (matchb n) (sets_frame self))).
    { apply filter_In. split; assumption. }
    rewrite E in Hg. exact Hg.
  - exfalso.
    assert (Hf : In row (filter (matchb n) (sets_frame self))).
    { rewrite E. left. reflexivity. }
    apply filter_In in Hf as [Hin Hm]. apply Hsame in Hin.
    assert (Hg : In row (filter (matchb n) (sets_frame self'))).
    { apply filter_In. split; assumption. }
    rewrite E' in Hg. exact Hg.
  - assert (Hf : In row (filter (matchb n) (sets_frame self))).
    { rewrite E. left. reflexivity. }
    assert (Hf' : In row' (filter (matchb n) (sets_frame self'))).
    { rewrite E'. left. reflexivity. }
    apply filter_In in Hf as [Hin Hm]. apply filter_In in Hf' as [Hin' Hm'].
    apply Hsame in Hin'. apply matchb_spec in Hm, Hm'.
    rewrite (Hone row row' Hin Hin' Hm Hm'). simpl.
    rewrite (pdrow_to_set_any_store float_repr _ self self'). reflexivity.
Qed.

(** X7. The conversion reads the identifier up to its first dash only:
    a row [first-variant] converts as the row whose identifier is
    [first] alone, whatever the variant, so the variants of a set get
    the same [set_id]. *)
Theorem pdrow_to_set_variant (first variant : string)
        (name_cell year_cell parts_cell : value) (self : RebrickableStore) :
  Forall (fun c => Ascii.eqb c "-" = false) (list_ascii_of_string first) ->
  run (_pdrow_to_set float_repr
         (Pd.Row (Pd.mkSeries (VStr (first ++ String "-" variant))
                              name_cell year_cell parts_cell))) self =
  run (_pdrow_to_set float_repr
         (Pd.Row (Pd.mkSeries (VStr first) name_cell year_cell parts_cell))) self.
Proof.
  intros H. rewrite !pdrow_to_set_text. unfold Py.split.
  rewrite (split_go_first "-" first variant EmptyString H).
  rewrite (split_go_no_sep "-" first EmptyString H). reflexivity.
Qed.

(** X8. What [by_id] can raise over a table that has the four columns.
    Either an identifier is not a text, and the lookup raises
    [AttributeError] or [ValueError]; or the first matching row does not
    convert, and [int] raises [ValueError], or [OverflowError] for a year
    or a part count that is infinite. No other error leaves [by_id]. *)
Theorem by_id_errors (self : RebrickableStore) (n : Z) (e : exn) :
  run (by_id float_repr n) self = Err e ->
  (Exists (fun row => isinstance_str (Pd.set_num row) = false) (sets_frame self) /\
   (e = AttributeError \/ e = ValueError)) \/
  (text_ids (sets_frame self) /\
   exists row,
     first_match n (sets_frame self) row /\
     (e = ValueError \/
      (e = OverflowError /\
       exists s, Pd.year row = VFloat (S754_infinity s) \/
                 Pd.num_parts row = VFloat (S754_infinity s)))).
Proof.
  intros H. unfold run in H. rewrite by_id_after_search in H.
  destruct (text_ids_dec (sets_frame self)) as [Ht|Hx].
  - right. split; [exact Ht|]. rewrite (search_text n self Ht) in H.
    destruct (filter (matchb n) (sets_frame self)) as [|row rows] eqn:E;
      [discriminate|].
    exists row. split; [apply (filter_head_first n _ rows); exact E|].
    assert (Hf : In row (filter (matchb n) (sets_frame self))).
    { rewrite E. left. reflexivity. }
    apply filter_In in Hf as [_ Hm]. unfold matchb in Hm. clear E.
    destruct row as [[t| | |] name_cell year_cell parts_cell];
      try discriminate Hm.
    simpl fst in H. rewrite pdrow_to_set_text in H.
    destruct (split_item0_ok t "-") as [first Ef]. rewrite Ef in H. simpl in H.
    destruct (Py.int_of_str first) as [i|e1] eqn:Ei; simpl in H.
    + destruct (Py.int year_cell) as [y|e2] eqn:Ey; simpl in H.
      * destruct (Py.int parts_cell) as [p|e3] eqn:Ep; simpl in H;
          [discriminate|].
        injection H as <-.
        destruct (int_error _ _ Ep) as [->|[-> [s ->]]]; [left; reflexivity|].
        right. split; [reflexivity|]. exists s. right. reflexivity.
      * injection H as <-.
        destruct (int_error _ _ Ey) as [->|[-> [s ->]]]; [left; reflexivity|].
        right. split; [reflexivity|]. exists s. left. reflexivity.
    + injection H as <-. left. apply (int_of_str_error first). exact Ei.
  - left. split; [exact Hx|].
    destruct (search_not_text n self Hx) as [E|E]; rewrite E in H;
      injection H as <-; [left | right]; reflexivity.
Qed.

End Tables.

(** ** The entry point and the conversion of float cells *)

Section EntryPoint.

Variable float_repr : spec_float -> string.
Variable LegoSet_str : LegoSet -> string.

(** X9. What [Store.by_id] of the entry point prints. Over a table with
    an identifier that is not a text it raises and prints nothing. Over a
    table of text identifiers it prints the line ["No lego set n was
    found in the database"] when no row matches, and otherwise the line
    ["Found: ..."] of the record of the first matching row, or raises
    the error of its conversion and prints nothing. It prints after what
    was printed before and keeps its store. *)
Theorem main_by_id_reports (self : Main.Store) (out : list string) (n : Z) :
  (Exists (fun row => isinstance_str (Pd.set_num row) = false)
          (sets_frame (Main._store self)) ->
   exists e, Main.by_id float_repr LegoSet_str n self out = (Err e, self, out)) /\
  (text_ids (sets_frame (Main._store self)) ->
   Forall (fun row => ~ matches n row) (sets_frame (Main._store self)) ->
   Main.by_id float_repr LegoSet_str n self out =
   (Ok tt, self, (out ++ [Main.not_found_line n])%list)) /\
  (text_ids (sets_frame (Main._store self)) ->
   forall row, first_match n (sets_frame (Main._store self)) row ->
   Main.by_id float_repr LegoSet_str n self out =
   match run (_pdrow_to_set float_repr (Pd.Row row)) (Main._store self) with
   | Ok found => (Ok tt, self, (out ++ [Main.found_line LegoSet_str found])%list)
   | Err e => (Err e, self, out)
   end).
Proof.
  destruct self as [path store]. unfold Main.by_id. simpl Main._store.
  simpl Main.csv_path. rewrite by_id_after_search. split; [|split].
  - intros Hx. destruct (search_not_text n store Hx) as [E|E]; rewrite E;
      eexists; reflexivity.
  - intros Ht Hn. rewrite (search_text n store Ht), (filter_none _ _ Hn).
    reflexivity.
  - intros Ht row Hf. rewrite (search_text n store Ht).
    destruct (filter_first _ _ _ Hf) as [rest ->].
    rewrite (pdrow_to_set_read_only float_repr (Pd.Row row) store).
    destruct (run (_pdrow_to_set float_repr (Pd.Row row)) store); reflexivity.
Qed.

End EntryPoint.

(** X10. A year or a part count that pandas holds as a float with a
    whole value converts to that value: [int] of the float
    [+-m * 2^e] is [+-m * 2^e] for [e >= 0], and [+-y] when [e < 0] and
    [m = y * 2^-e]. *)
Theorem int_of_whole_float (s : bool) (m : positive) (e y : Z) :
  (0 <= e ->
   Py.int (VFloat (S754_finite s m e)) =
   Ok (if s then - (Z.pos m * 2 ^ e) else Z.pos m * 2 ^ e)) /\
  (e < 0 -> Z.pos m = y * 2 ^ (- e) ->
   Py.int (VFloat (S754_finite s m e)) = Ok (if s then - y else y)).
Proof.
  split.
  - intros He. simpl. destruct (0 <=? e) eqn:E; [|apply Z.leb_gt in E; lia].
    rewrite Z.shiftl_mul_pow2 by exact He. reflexivity.
  - intros He Hm. simpl. destruct (0 <=? e) eqn:E; [apply Z.leb_le in E; lia|].
    rewrite Z.shiftr_div_pow2 by lia. rewrite Hm.
    rewrite Z.div_mul by (apply Z.pow_nonzero; lia). reflexivity.
Qed.

(** ** The further properties on the samples *)

Lemma by_id_negative_never_found_witness :
  run (by_id sample_repr (-5))
      (mkStore [Pd.mkSeries (VStr "-5-1") (VStr "Odd") (VInt 2001) (VInt 4)])
  <> Ok (Some (mkLegoSet (-5) "Odd" (Some 2001) (Some 4))).
Proof.
  apply (by_id_negative_never_found sample_repr). lia.
Defined.

Lemma by_id_exact_id_witness :
  run (by_id sample_repr 1000) (mkStore [row_71; row_1000_1; row_1000_2]) =
  Ok (Some (mkLegoSet 1000 "First variant" (Some 1985) (Some 30))).
Proof.
  apply (by_id_exact_id sample_repr (mkStore [row_71; row_1000_1; row_1000_2])
           1000 "1" (VStr "First variant") (VInt 1985) (VInt 30) 1985 30
           [row_71] [row_1000_2]).
  - lia.
  - repeat constructor.
  - reflexivity.
  - constructor; [|constructor].
    intros Hm. apply matchb_spec in Hm. discriminate Hm.
  - reflexivity.
  - reflexivity.
Defined.

Lemma search_numeric_part_witness :
  In brick_separator [brick_separator; row_71] <-> starts_with "7140" (Py.str_of_int 71).
Proof.
  apply (search_numeric_part (mkStore [brick_separator; row_71]) 71
           [brick_separator; row_71] brick_separator "7140" "1").
  - lia.
  - reflexivity.
  - left. reflexivity.
  - reflexivity.
Defined.

Lemma by_id_absent_extends_witness :
  run (by_id sample_repr 81) (mkStore [row_71]) = Ok None.
Proof.
  apply (by_id_absent_extends sample_repr (mkStore [row_71]) 8 81).
  - exists "1". reflexivity.
  - reflexivity.
Defined.

Lemma by_id_app_witness :
  run (by_id sample_repr 1000) (mkStore ([row_71] ++ [row_1000_2; row_1000_1])%list) =
  run (by_id sample_repr 1000) (mkStore [row_1000_2; row_1000_1]).
Proof.
  apply (by_id_app sample_repr [row_71] [row_1000_2; row_1000_1] 1000);
    repeat constructor.
Defined.

Lemma by_id_same_rows_witness :
  run (by_id sample_repr 7140) (mkStore [brick_separator; row_71]) =
  run (by_id sample_repr 7140) (mkStore [row_71; brick_separator; row_71]).
Proof.
  apply (by_id_same_rows sample_repr (mkStore [brick_separator; row_71])
           (mkStore [row_71; brick_separator; row_71]) 7140).
  - repeat constructor.
  - intros r. simpl. tauto.
  - intros r r' Hr Hr' Hm Hm'. apply matchb_spec in Hm, Hm'. simpl in Hr, Hr'.
    destruct Hr as [<-|[<-|[]]]; destruct Hr' as [<-|[<-|[]]];
      try reflexivity; discriminate.
Defined.

Lemma pdrow_to_set_variant_witness :
  run (_pdrow_to_set sample_repr
         (Pd.Row (Pd.mkSeries (VStr "1000-2") (VStr "Second variant")
                              (VInt 1987) (VInt 31)))) (mkStore []) =
  run (_pdrow_to_set sample_repr
         (Pd.Row (Pd.mkSeries (VStr "1000") (VStr "Second variant")
                              (VInt 1987) (VInt 31)))) (mkStore []).
Proof.
  apply (pdrow_to_set_variant sample_repr "1000" "2"). repeat constructor.
Defined.

Lemma by_id_errors_witness :
  (Exists (fun row => isinstance_str (Pd.set_num row) = false) [row_no_year] /\
   (ValueError = AttributeError \/ ValueError = ValueError)) \/
  (text_ids [row_no_year] /\
   exists row,
     first_match 7140 [row_no_year] row /\
     (ValueError = ValueError \/
      (ValueError = OverflowError /\
       exists s, Pd.year row = VFloat (S754_infinity s) \/
                 Pd.num_parts row = VFloat (S754_infinity s)))).
Proof.
  apply (by_id_errors sample_repr (mkStore [row_no_year]) 7140 ValueError).
  reflexivity.
Defined.

Lemma main_by_id_reports_witness :
  Main.by_id sample_repr (fun _ => "a set") 8 (Main.mkMain "sets.csv" (mkStore [row_71]))
             ["earlier line"] =
  (Ok tt, Main.mkMain "sets.csv" (mkStore [row_71]),
   ["earlier line"; "No lego set 8 was found in the database"]).
Proof.
  apply (proj1 (proj2 (main_by_id_reports sample_repr (fun _ => "a set")
                         (Main.mkMain "sets.csv" (mkStore [row_71]))
                         ["earlier line"] 8))).
  - repeat constructor.
  - constructor; [|constructor].
    intros Hm. apply matchb_spec in Hm. discriminate Hm.
Defined.

(** 2001.0 as a binary64 float: 2001 * 2^42 with exponent -42. *)
Lemma int_of_whole_float_witness :
  Py.int (VFloat (S754_finite false 8800491068719104 (-42))) = Ok 2001.
Proof.
  apply (proj2 (int_of_whole_float false 8800491068719104 (-42) 2001)).
  - lia.
  - reflexivity.
Defined.
